(** * sfsbook: the session cookie layer of [server/user_state.go]

    A shallow embedding of the capability mask, the [UserCookie] record,
    the key bootstrap ([makeCookieCryptoKey], [makeCookieTooling]) and the
    cookie-decoding middleware ([cookieHandler.ServeHTTP], [GetCookie]),
    followed by the properties established about them. *)

From Stdlib Require Import ZArith Lia Ascii.
From stdpp Require Import base option list strings pretty gmap.

Local Open Scope string_scope.
Local Open Scope Z_scope.

(** ** Capability masks *)

(** [type CapabilityType int64]: a signed 64-bit integer, kept as a [Z]
    in the range of [int64]. *)
Definition CapabilityType := Z.

(** The value an [int64] holds after an arithmetic result [z] wraps. *)
Definition int64 (z : Z) : Z := (z + 2 ^ 63) mod 2 ^ 64 - 2 ^ 63.

(** Finding this capability in a [UserCookie] implies that the uuid is
    empty. *)
Definition CapabilityAnonymous : CapabilityType := 0.

(** The [const ( ... = 1 << iota ... )] block: the constant declared at
    position [iota] of the block is [1 << iota]. *)
Definition bit (iota : Z) : CapabilityType := int64 (Z.shiftl 1 iota).

Definition CapabilityViewPublicResourceEntry : CapabilityType := bit 0.
Definition CapabilityViewOwnVolunteerComment : CapabilityType := bit 1.
Definition CapabilityViewOtherVolunteerComment : CapabilityType := bit 2.
Definition CapabilityEditOwnVolunteerComment : CapabilityType := bit 3.
Definition CapabilityEditOtherVolunteerComment : CapabilityType := bit 4.
Definition CapabilityEditResource : CapabilityType := bit 5.
Definition CapabilityViewUsers : CapabilityType := bit 6.
Definition CapabilityInviteNewVolunteer : CapabilityType := bit 7.
Definition CapabilityInviteNewAdmin : CapabilityType := bit 8.
Definition CapabilityEditUsers : CapabilityType := bit 9.
Definition CapabilityReauthenticate : CapabilityType := bit 10.

(** Every single-bit capability the block declares, in declaration
    order. *)
Definition capabilityBits : list CapabilityType :=
  [ CapabilityViewPublicResourceEntry;
    CapabilityViewOwnVolunteerComment;
    CapabilityViewOtherVolunteerComment;
    CapabilityEditOwnVolunteerComment;
    CapabilityEditOtherVolunteerComment;
    CapabilityEditResource;
    CapabilityViewUsers;
    CapabilityInviteNewVolunteer;
    CapabilityInviteNewAdmin;
    CapabilityEditUsers;
    CapabilityReauthenticate ].

Definition CapabilityAdministrator : CapabilityType :=
  Z.lor (Z.lor (Z.lor (Z.lor CapabilityViewUsers CapabilityInviteNewVolunteer)
                      CapabilityInviteNewAdmin)
               CapabilityEditUsers)
        CapabilityViewPublicResourceEntry.

Definition CapabilityVolunteer : CapabilityType :=
  Z.lor (Z.lor (Z.lor (Z.lor (Z.lor CapabilityViewPublicResourceEntry
                                    CapabilityViewOwnVolunteerComment)
                             CapabilityViewOtherVolunteerComment)
                      CapabilityEditOwnVolunteerComment)
               CapabilityEditResource)
        CapabilityInviteNewVolunteer.

(** ** The record stored in the auth cookie *)

(** [uuid.UUID] is a byte slice; its zero value is the nil slice. *)
Definition UUID := list Byte.byte.

(** [time.Time], kept as an offset from the zero time, so that [0] is the
    zero value of the type. *)
Definition Time := Z.

Record UserCookie := mkUserCookie {
  Uuid : UUID;                  (* the user identifier *)
  Capability : CapabilityType;  (* a mask of capabilities *)
  Timestamp : Time;             (* the time that the cookie was created *)
  Displayname : string          (* the user's display_name *)
}.

(** [new(UserCookie)]: every field holds the zero value of its type. *)
Definition new_UserCookie : UserCookie :=
  {| Uuid := []; Capability := 0; Timestamp := 0; Displayname := EmptyString |}.

Definition set_Capability (u : UserCookie) (c : CapabilityType) : UserCookie :=
  {| Uuid := Uuid u; Capability := c;
     Timestamp := Timestamp u; Displayname := Displayname u |}.

Definition IsAuthed (u : UserCookie) : bool :=
  negb (Capability u =? CapabilityAnonymous).

Definition DisplayName (u : UserCookie) : string := Displayname u.

Definition HasCapability (u : UserCookie) (cap : CapabilityType) : bool :=
  negb (Z.land (Capability u) cap =? 0).

Definition HasCapabilityEditResource (u : UserCookie) : bool :=
  HasCapability u CapabilityEditResource.

Definition HasCapabilityViewUsers (u : UserCookie) : bool :=
  HasCapability u CapabilityViewUsers.

Definition HasCapabilityIniviteUsers (u : UserCookie) : bool :=
  HasCapability u (Z.lor CapabilityInviteNewVolunteer CapabilityInviteNewAdmin).

(** ** Effects *)

(** Go's [error] values are kept as the text [Error()] returns; a call
    that returns [(value, error)] returns a [result]. *)
Definition error := string.

Inductive result (A : Type) : Type :=
| Ok (a : A)
| Err (e : error).
Arguments Ok {A} a.
Arguments Err {A} e.

(** A call that may end in a run-time panic. *)
Inductive outcome (A : Type) : Type :=
| Returns (a : A)
| Panics (msg : string).
Arguments Returns {A} a.
Arguments Panics {A} msg.

(** Code that reads and writes a state [S] and yields an [A]. *)
Definition State (S A : Type) : Type := S -> A * S.

#[global] Instance State_ret {S} : MRet (State S) :=
  fun A a s => (a, s).
#[global] Instance State_bind {S} : MBind (State S) :=
  fun A B k m s => let '(a, s') := m s in k a s'.

Definition newline : string := String "010"%char EmptyString.

Module fmt.

(** [fmt.Sprintln]: the operands separated by spaces, then a newline. *)
Definition Sprintln (operands : list string) : string :=
  String.concat " " operands ++ newline.

End fmt.

Module filepath.

(** [filepath.Join] of two elements: empty elements are ignored and the
    rest joined with the separator. The lexical cleaning [Join] then
    applies ([.], [..], doubled separators) is left out. *)
Definition Join (dir name : string) : string :=
  if decide (dir = EmptyString) then name
  else if decide (name = EmptyString) then dir
  else dir ++ "/" ++ name.

End filepath.

(** *** The host the server starts on

    The key bootstrap reaches the outside through [ioutil.ReadFile],
    [os.Create], [os.File.Write] and [securecookie.GenerateRandomKey].
    Those live in the Go library and in gorilla/securecookie; they are
    modelled here by what their documentation promises. *)

(** A file, with the two ways the calls can be refused on it. Reading
    (open for reading, then read to the end) and re-creating (open for
    writing with truncation, which reads nothing) are separate calls and
    fail independently. *)
Record File := mkFile {
  data : list Byte.byte;
  read_fault : option error;    (* why reading this file fails, if it does *)
  trunc_fault : option error    (* why truncating this file fails, if it does *)
}.

Record Host := mkHost {
  files : gmap string File;     (* the files, by path *)
  create_fault : option error;  (* why adding a new file fails, if it does *)
  room : nat;                   (* bytes the disk still takes *)
  entropy : list Byte.byte      (* bytes the system random source still yields *)
}.

Module ioutil.

(** [ioutil.ReadFile]: the whole contents, or the error that stopped the
    read. *)
Definition ReadFile (path : string) : State Host (result (list Byte.byte)) :=
  fun h =>
    match files h !! path with
    | None => (Err ("open " ++ path ++ ": no such file or directory"), h)
    | Some f =>
        match read_fault f with
        | Some e => (Err e, h)
        | None => (Ok (data f), h)
        end
    end.

End ioutil.

Module os.

(** An open file, named by the path it was opened at. *)
Definition FileHandle := string.

(** [os.Create]: creates the file, or truncates it if it already
    exists. *)
Definition Create (path : string) : State Host (result FileHandle) :=
  fun h =>
    match files h !! path with
    | Some f =>
        match trunc_fault f with
        | Some e => (Err e, h)
        | None =>
            (Ok path,
             mkHost (<[path := mkFile [] (read_fault f) None]> (files h))
                    (create_fault h) (room h) (entropy h))
        end
    | None =>
        match create_fault h with
        | Some e => (Err e, h)
        | None =>
            (Ok path,
             mkHost (<[path := mkFile [] None None]> (files h))
                    (create_fault h) (room h) (entropy h))
        end
    end.

(** [os.File.Write]: appends as much of [b] as the disk takes, and
    returns the number of bytes written together with an error when that
    is less than [len(b)]. *)
Definition Write (file : FileHandle) (b : list Byte.byte)
  : State Host (nat * option error) :=
  fun h =>
    match files h !! file with
    | None => ((0%nat, Some ("write " ++ file ++ ": file already closed")), h)
    | Some f =>
        let n := Nat.min (length b) (room h) in
        let f' := mkFile (data f ++ take n b) (read_fault f) (trunc_fault f) in
        let h' := mkHost (<[file := f']> (files h))
                         (create_fault h) (room h - n)%nat (entropy h) in
        ((n, if decide (n = length b) then None
             else Some ("write " ++ file ++ ": no space left on device")), h')
    end.

End os.

Module securecookie.

(** [securecookie.GenerateRandomKey]: [length] bytes from the system
    random source, or nil when the source fails to yield that many. *)
Definition GenerateRandomKey (length : nat) : State Host (option (list Byte.byte)) :=
  fun h =>
    if decide (length <= List.length (entropy h))%nat
    then (Some (take length (entropy h)),
          mkHost (files h) (create_fault h) (room h) (drop length (entropy h)))
    else (None, mkHost (files h) (create_fault h) (room h) []).

(** [*securecookie.SecureCookie], seen through the one method the
    middleware calls. [Decode name value dst] works on the record [dst]
    points to and returns what that record holds afterwards, together
    with the error, if any. *)
Record SecureCookie := mkSecureCookie {
  Decode : string -> string -> UserCookie -> UserCookie * option error
}.

End securecookie.

(** [error] printed with the verb [%v]. *)
Definition show_error (err : option error) : string :=
  match err with
  | Some e => e
  | None => "<nil>"
  end.

(** makeCookieCryptoKey constructs a cryptokey stored in cookiename. *)
Definition makeCookieCryptoKey (statepath cookiename : string)
  : State Host (result (list Byte.byte)) :=
  let path := filepath.Join statepath cookiename in
  r ← ioutil.ReadFile path;
  match r with
  | Ok key => mret (Ok key)
  | Err _ =>
      k ← securecookie.GenerateRandomKey 32;
      match k with
      | None =>
          mret (Err ("No cookie for " ++ cookiename ++ " and can't make one"))
      | Some key =>
          c ← os.Create path;
          match c with
          | Err err =>
              mret (Err ("Can't create a " ++ path
                           ++ " to hold new cookie: " ++ err))
          | Ok cookiefile =>
              '(n, err) ← os.Write cookiefile key;
              if bool_decide (err <> None) || negb (n =? length key)%nat
              then mret (Err ("Can't write new cookie " ++ path
                                ++ ".  len is " ++ pretty n
                                ++ " instead of " ++ pretty (length key)
                                ++ " or error: " ++ show_error err))
              else mret (Ok key)
          end
      end
  end.

Section Tooling.

(** [securecookie.New], which builds the codec from the two keys. *)
Variable securecookie_New :
  list Byte.byte -> list Byte.byte -> securecookie.SecureCookie.

(** makeCookieTooling constructs cookie tooling for the HandlerFactory. *)
Definition makeCookieTooling (statepath : string)
  : State Host (result securecookie.SecureCookie) :=
  r ← makeCookieCryptoKey statepath "hashkey.dat";
  match r with
  | Err err => mret (Err err)
  | Ok hashkey =>
      r ← makeCookieCryptoKey statepath "blockkey.dat";
      match r with
      | Err err => mret (Err err)
      | Ok blockkey => mret (Ok (securecookie_New hashkey blockkey))
      end
  end.

End Tooling.

(** ** Requests *)

(** The dynamically typed values a request context may hold: a
    [*UserCookie], kept as the record it points to, or a value of some
    other type. *)
Inductive any : Type :=
| any_UserCookie (p : UserCookie)
| any_other (v : string).

Module context.

(** A context is the chain [context.WithValue] builds on top of the
    background context. *)
Inductive Context : Type :=
| Background
| WithValue (parent : Context) (key : string) (val : any).

(** [ctx.Value(key)]: the value of the innermost binding of [key], or
    nil ([None]) when the chain has none. *)
Fixpoint Value (ctx : Context) (key : string) : option any :=
  match ctx with
  | Background => None
  | WithValue parent k val =>
      if decide (k = key) then Some val else Value parent key
  end.

End context.

Module http.

Record Cookie := mkCookie {
  Name : string;
  Value : string
}.

(** A request, as far as the middleware looks at it: the cookies sent
    with it, in header order, and its context. *)
Record Request := mkRequest {
  cookies : list Cookie;
  ctx : context.Context
}.

Definition ErrNoCookie : error := "http: named cookie not present".

(** [req.Cookie(name)]: the first cookie of that name, or
    [ErrNoCookie]. *)
Fixpoint findCookie (cs : list Cookie) (name : string) : result Cookie :=
  match cs with
  | [] => Err ErrNoCookie
  | c :: rest => if decide (Name c = name) then Ok c else findCookie rest name
  end.

Definition Request_Cookie (req : Request) (name : string) : result Cookie :=
  findCookie (cookies req) name.

Definition Request_Context (req : Request) : context.Context := ctx req.

(** [req.WithContext(ctx)]: a copy of the request with its context
    changed. *)
Definition Request_WithContext (req : Request) (c : context.Context) : Request :=
  mkRequest (cookies req) c.

(** A response writer is named by a handle; what has been sent through it
    is part of the state of the serving process. *)
Definition ResponseWriter := nat.

Inductive Response : Type :=
| ErrorResponse (diagnostic : string)  (* an HTTP error status with this body *)
| Body (chunk : string).               (* body bytes written by a handler *)

End http.

(** The state one request is served in: the lines written to the
    standard logger and what went out through each response writer, both
    oldest first. *)
Record World := mkWorld {
  stdlog : list string;
  sent : list (http.ResponseWriter * http.Response)
}.

Module log.

(** [log.Println]: one line on the standard logger (its time prefix is
    left out). *)
Definition Println (operands : list string) : State World unit :=
  fun s => (tt, mkWorld (stdlog s ++ [fmt.Sprintln operands]) (sent s)).

End log.

(** [http.Handler]: a value with the method [ServeHTTP]. *)
Definition Handler : Type := http.ResponseWriter -> http.Request -> State World unit.

(** [w.Write(chunk)], for handlers that answer through [w]. *)
Definition ResponseWriter_Write (w : http.ResponseWriter) (chunk : string)
  : State World unit :=
  fun s => (tt, mkWorld (stdlog s) (sent s ++ [(w, http.Body chunk)])).

(** Modelled from the spec: [respondWithError] is called by [ServeHTTP] but
    declared in another file of the server package. The decode failure is
    to "surface as an HTTP error response to the originating client, e.g. a
    4xx status with a diagnostic body": the call sends an error response
    carrying [emsg] through [w]. It returns to its caller: the spec
    records that the handler "still falls through to the delegate". *)
Definition respondWithError (w : http.ResponseWriter) (emsg : string)
  : State World unit :=
  fun s => (tt, mkWorld (stdlog s) (sent s ++ [(w, http.ErrorResponse emsg)])).

(** ** The cookie handler *)

(** cookieHandler is the state for an implementation of http.Handler that
    can invoke its delegatehandler with a decoded auth cookie context. *)
Record cookieHandler := mkCookieHandler {
  cookiecodec : securecookie.SecureCookie;
  revokelist : list UUID;
  delegate : Handler
}.

Record HandlerFactory := mkHandlerFactory {
  hf_cookiecodec : securecookie.SecureCookie
}.

Definition SessionCookieName : string := "session".
Definition UserCookieStateName : string := "usercookiestate".

(** GetCookie retrieves the UserState from the context. The type
    assertion panics unless slot [UserCookieStateName] holds a
    [*UserCookie]. *)
Definition GetCookie (req : http.Request) : outcome UserCookie :=
  match context.Value (http.Request_Context req) UserCookieStateName with
  | Some (any_UserCookie p) => Returns p
  | Some (any_other _) =>
      Panics "interface conversion: interface {} is not *server.UserCookie"
  | None =>
      Panics "interface conversion: interface {} is nil, not *server.UserCookie"
  end.

(** ServeHTTP updates the given http.Request with a decoded instance of
    the auth cookie or updates the response to redirect appropriately. *)
Definition ServeHTTP (cf : cookieHandler) : Handler :=
  fun w req =>
    let usercookie := new_UserCookie in
    usercookie ←
      match http.Request_Cookie req SessionCookieName with
      | Ok cookie =>
          (* This request has a cookie. *)
          let '(usercookie, err) :=
            securecookie.Decode (cookiecodec cf)
              SessionCookieName (http.Value cookie) usercookie in
          match err with
          | Some err =>
              log.Println
                ["request had a cookie but it was not decodeable:"; err];;
              respondWithError w
                (fmt.Sprintln ["Malformed session cookie"; err]);;
              mret usercookie
          | None => mret usercookie
          end
      | Err _ =>
          log.Println ["anonymous access"];;
          mret (set_Capability usercookie CapabilityAnonymous)
      end;
    delegate cf w
      (http.Request_WithContext req
         (context.WithValue (http.Request_Context req)
            UserCookieStateName (any_UserCookie usercookie))).

(** makeCookieHandler builds a http.Handler that can decrypt auth
    cookies. *)
Definition makeCookieHandler (hf : HandlerFactory) (delegate : Handler) : Handler :=
  ServeHTTP (mkCookieHandler (hf_cookiecodec hf) [] delegate).

(** ** Vocabulary of the statements *)

(** The state a computation leaves behind. *)
Definition exec {S A : Type} (m : State S A) (s : S) : S := (m s).2.

(** The request [ServeHTTP] hands on: [req] with [usercookie] bound to
    [UserCookieStateName] on top of its context. *)
Definition withUserCookie (req : http.Request) (usercookie : UserCookie)
  : http.Request :=
  http.Request_WithContext req
    (context.WithValue (http.Request_Context req)
       UserCookieStateName (any_UserCookie usercookie)).




(** *** Fixtures *)

Definition emptyWorld : World := mkWorld [] [].

(** A codec that accepts nothing. *)
Definition rejectingCodec : securecookie.SecureCookie :=
  securecookie.mkSecureCookie
    (fun _ _ dst => (dst, Some "securecookie: the value is not valid")).



(** A signed-in volunteer, and a codec that decodes the value ["token"]
    to that record and rejects every other value. *)
Definition volunteerUser : UserCookie :=
  {| Uuid := [Byte.x2a]; Capability := CapabilityVolunteer;
     Timestamp := 1; Displayname := "vera" |}.

Definition volunteerCodec : securecookie.SecureCookie :=
  securecookie.mkSecureCookie
    (fun _ value dst =>
       if decide (value = "token") then (volunteerUser, None)
       else (dst, Some "securecookie: the value is not valid")).

(** A delegate that answers with what it finds in the request context. *)
Definition reportingDelegate : Handler :=
  fun w req =>
    match GetCookie req with
    | Returns u =>
        ResponseWriter_Write w
          (fmt.Sprintln
             [if decide (Uuid u = []) then "no-id" else "id";
              if IsAuthed u then "authed" else "anonymous"])
    | Panics _ => mret tt
    end.

Definition sessionRequest (value : string) : http.Request :=
  http.mkRequest [http.mkCookie SessionCookieName value] context.Background.

Definition oldKey : list Byte.byte := replicate 32 Byte.x11.
Definition freshBytes : list Byte.byte := replicate 32 Byte.x07.

(** A host whose hash key file exists but cannot be read back, while it
    can still be truncated and written. *)
Definition damagedHost : Host :=
  {| files :=
       {[ "state/hashkey.dat" :=
            mkFile oldKey (Some "read state/hashkey.dat: input/output error") None ]};
     create_fault := None;
     room := 64;
     entropy := freshBytes |}.

(** A host with no key files yet. *)
Definition freshHost : Host :=
  {| files := ∅; create_fault := None; room := 64; entropy := freshBytes |}.

(** A codec that fills the record in and then reports an error. *)
Definition leakyCodec : securecookie.SecureCookie :=
  securecookie.mkSecureCookie
    (fun _ _ _ => (volunteerUser, Some "securecookie: expired timestamp")).

(** A request that carries two session cookies after another cookie. *)
Definition crowdedRequest : http.Request :=
  http.mkRequest
    [ http.mkCookie "theme" "dark";
      http.mkCookie SessionCookieName "token";
      http.mkCookie SessionCookieName "garbage" ]
    (context.WithValue context.Background "trace" (any_other "abc")).

(** A host whose hash key file is in place and readable; the file is
    three bytes long. *)
Definition provisionedHost : Host :=
  {| files :=
       {[ "state/hashkey.dat" := mkFile [Byte.x61; Byte.x62; Byte.x63] None None ]};
     create_fault := None;
     room := 64;
     entropy := freshBytes |}.

(** A host with no key files and a disk that takes five more bytes. *)
Definition crampedHost : Host :=
  {| files := ∅; create_fault := None; room := 5; entropy := freshBytes |}.

(** A host with no key files whose random source yields four bytes. *)
Definition dryHost : Host :=
  {| files := ∅; create_fault := None; room := 64;
     entropy := replicate 4 Byte.x07 |}.

(** A host with no key files and enough room and random bytes for both
    keys. *)
Definition roomyHost : Host :=
  {| files := ∅; create_fault := None; room := 100;
     entropy := (freshBytes ++ oldKey)%list |}.

(** A stand-in for [securecookie.New] that keeps no more of the keys than
    their lengths. *)
Definition lengthCodec (hashkey blockkey : list Byte.byte)
  : securecookie.SecureCookie :=
  securecookie.mkSecureCookie
    (fun _ _ dst =>
       (dst, Some ("securecookie: no codec for keys of "
                     ++ pretty (length hashkey) ++ " and "
                     ++ pretty (length blockkey) ++ " bytes"))).

(** ** Capabilities *)

Lemma HasCapability_true (u : UserCookie) (cap : CapabilityType) :
  HasCapability u cap = true <-> Z.land (Capability u) cap <> 0.
Proof.
  unfold HasCapability. rewrite negb_true_iff, Z.eqb_neq. reflexivity.
Qed.

(** The block assigns the first eleven powers of two, in order. *)
Lemma capabilityBits_values :
  capabilityBits = [1; 2; 4; 8; 16; 32; 64; 128; 256; 512; 1024].
Proof. reflexivity. Qed.

(** C3: for every mask [m] and every bit [b], [HasCapability] on a record
    whose mask is [m] returns true if and only if the bitwise AND of [m]
    and [b] is non-zero. It is a function of the mask and the bit alone:
    the other fields of the record do not enter, and no state does. *)
Theorem HasCapability_iff_land_nonzero
  (m b : CapabilityType) (id : UUID) (t : Time) (name : string) :
  HasCapability (mkUserCookie id m t name) b = true <-> Z.land m b <> 0.
Proof. apply HasCapability_true. Qed.

(** C4: on a record whose mask is [CapabilityAnonymous], [HasCapability]
    is false for every capability bit the constant block declares. *)
Theorem HasCapability_anonymous_false (u : UserCookie) (b : CapabilityType) :
  Capability u = CapabilityAnonymous ->
  b ∈ capabilityBits ->
  HasCapability u b = false.
Proof.
  intros Hanon _. unfold HasCapability.
  rewrite Hanon. unfold CapabilityAnonymous.
  rewrite Z.land_0_l. reflexivity.
Qed.

Lemma HasCapability_anonymous_false_witness :
  HasCapability new_UserCookie CapabilityReauthenticate = false.
Proof.
  apply HasCapability_anonymous_false.
  - reflexivity.
  - unfold capabilityBits. set_solver.
Defined.

(** C5: [CapabilityAdministrator] is the union of view-users,
    invite-volunteer, invite-admin, edit-users and view-public-entry; a
    record holding it has [CapabilityViewUsers] and does not have
    [CapabilityEditResource]. *)
Theorem Administrator_capabilities (id : UUID) (t : Time) (name : string) :
  let admin := mkUserCookie id CapabilityAdministrator t name in
  HasCapability admin CapabilityViewUsers = true
  /\ HasCapability admin CapabilityEditResource = false
  /\ CapabilityAdministrator =
       Z.lor CapabilityViewUsers
         (Z.lor CapabilityInviteNewVolunteer
            (Z.lor CapabilityInviteNewAdmin
               (Z.lor CapabilityEditUsers CapabilityViewPublicResourceEntry))).
Proof. repeat split. Qed.

(** C6: [CapabilityVolunteer] is the union of view-public-entry,
    view-own-comment, view-other-comment, edit-own-comment, edit-resource
    and invite-volunteer; a record holding it has
    [CapabilityEditResource] and does not have [CapabilityEditUsers]. *)
Theorem Volunteer_capabilities (id : UUID) (t : Time) (name : string) :
  let volunteer := mkUserCookie id CapabilityVolunteer t name in
  HasCapability volunteer CapabilityEditResource = true
  /\ HasCapability volunteer CapabilityEditUsers = false
  /\ CapabilityVolunteer =
       Z.lor CapabilityViewPublicResourceEntry
         (Z.lor CapabilityViewOwnVolunteerComment
            (Z.lor CapabilityViewOtherVolunteerComment
               (Z.lor CapabilityEditOwnVolunteerComment
                  (Z.lor CapabilityEditResource CapabilityInviteNewVolunteer)))).
Proof. repeat split. Qed.

(** ** The middleware *)

Lemma findCookie_absent (cs : list http.Cookie) (name : string) :
  (forall c, c ∈ cs -> http.Name c <> name) ->
  http.findCookie cs name = Err http.ErrNoCookie.
Proof.
  induction cs as [|c cs IH]; intros Hnone; simpl.
  - reflexivity.
  - destruct (decide (http.Name c = name)) as [Heq|_].
    + exfalso. apply (Hnone c); [left | exact Heq].
    + apply IH. intros c' Hin. apply Hnone. right. exact Hin.
Qed.

Lemma GetCookie_withUserCookie (req : http.Request) (u : UserCookie) :
  GetCookie (withUserCookie req u) = Returns u.
Proof.
  unfold GetCookie, withUserCookie. simpl.
  destruct (decide (UserCookieStateName = UserCookieStateName)); congruence.
Qed.

Section Outcomes.

Variables (cf : cookieHandler) (w : http.ResponseWriter).
Variables (req : http.Request) (s : World).

(** No session cookie: the anonymous record goes to the delegate. *)
Lemma ServeHTTP_no_cookie (e : error) :
  http.Request_Cookie req SessionCookieName = Err e ->
  ServeHTTP cf w req s =
  delegate cf w
    (withUserCookie req (set_Capability new_UserCookie CapabilityAnonymous))
    (exec (log.Println ["anonymous access"]) s).
Proof.
  intros Hnone. unfold ServeHTTP, mbind, State_bind, mret, State_ret.
  rewrite Hnone. reflexivity.
Qed.

(** A session cookie that decodes: the decoded record goes to the
    delegate, and nothing is logged or sent on the way. *)
Lemma ServeHTTP_decoded (c : http.Cookie) (u : UserCookie) :
  http.Request_Cookie req SessionCookieName = Ok c ->
  securecookie.Decode (cookiecodec cf) SessionCookieName (http.Value c)
    new_UserCookie = (u, None) ->
  ServeHTTP cf w req s = delegate cf w (withUserCookie req u) s.
Proof.
  intros Hc Hdec. unfold ServeHTTP, mbind, State_bind, mret, State_ret.
  rewrite Hc, Hdec. reflexivity.
Qed.

(** A session cookie that does not decode: the anomaly is logged, the
    error response is sent, and the delegate runs all the same, on
    whatever the codec left in the record. *)
Lemma ServeHTTP_undecodable (c : http.Cookie) (u : UserCookie) (err : error) :
  http.Request_Cookie req SessionCookieName = Ok c ->
  securecookie.Decode (cookiecodec cf) SessionCookieName (http.Value c)
    new_UserCookie = (u, Some err) ->
  ServeHTTP cf w req s =
  delegate cf w (withUserCookie req u)
    (exec (respondWithError w (fmt.Sprintln ["Malformed session cookie"; err]))
       (exec (log.Println
                ["request had a cookie but it was not decodeable:"; err]) s)).
Proof.
  intros Hc Hdec. unfold ServeHTTP, mbind, State_bind, mret, State_ret.
  rewrite Hc, Hdec. reflexivity.
Qed.

End Outcomes.

(** C1: a request whose session cookie fails to decode is answered with
    an error response and is claimed not to reach the delegate. Evaluated
    on a request carrying [session=garbage], a codec that rejects it and a
    delegate that reports what it sees: the error response goes out and
    the delegate runs after it, answering through the same writer as for
    an anonymous request. *)
Theorem ServeHTTP_undecodable_reaches_delegate :
  sent (exec (ServeHTTP (mkCookieHandler rejectingCodec [] reportingDelegate)
                0%nat (sessionRequest "garbage"))
          emptyWorld)
  = [ (0%nat, http.ErrorResponse
                (fmt.Sprintln ["Malformed session cookie";
                               "securecookie: the value is not valid"]));
      (0%nat, http.Body (fmt.Sprintln ["no-id"; "anonymous"])) ].
Proof. reflexivity. Qed.

(** C2: for a request without a session cookie, [ServeHTTP] builds a
    record with mask [CapabilityAnonymous] and an empty id, binds it to
    [UserCookieStateName] in the request context, where [GetCookie] finds
    it, and hands the request to the delegate, with the same writer. *)
Theorem ServeHTTP_no_session_cookie
  (cf : cookieHandler) (w : http.ResponseWriter) (req : http.Request) (s : World) :
  (forall c, c ∈ http.cookies req -> http.Name c <> SessionCookieName) ->
  exists u : UserCookie,
    ServeHTTP cf w req s =
      delegate cf w (withUserCookie req u)
        (exec (log.Println ["anonymous access"]) s)
    /\ context.Value (http.ctx (withUserCookie req u)) UserCookieStateName
       = Some (any_UserCookie u)
    /\ GetCookie (withUserCookie req u) = Returns u
    /\ Capability u = CapabilityAnonymous
    /\ Uuid u = [].
Proof.
  intros Hnone.
  exists (set_Capability new_UserCookie CapabilityAnonymous).
  split; [|split; [|split; [|split]]].
  - apply (ServeHTTP_no_cookie _ _ _ _ http.ErrNoCookie).
    unfold http.Request_Cookie. apply findCookie_absent, Hnone.
  - pose proof (GetCookie_withUserCookie req
                  (set_Capability new_UserCookie CapabilityAnonymous)) as Hget.
    unfold GetCookie, http.Request_Context in Hget.
    destruct (context.Value _ _) as [[p|v]|]; congruence.
  - apply GetCookie_withUserCookie.
  - reflexivity.
  - reflexivity.
Qed.

Lemma ServeHTTP_no_session_cookie_witness :
  exists u : UserCookie,
    ServeHTTP (mkCookieHandler rejectingCodec [] reportingDelegate) 0%nat
      (http.mkRequest [http.mkCookie "theme" "dark"] context.Background)
      emptyWorld =
      reportingDelegate 0%nat
        (withUserCookie
           (http.mkRequest [http.mkCookie "theme" "dark"] context.Background) u)
        (exec (log.Println ["anonymous access"]) emptyWorld)
    /\ context.Value
         (http.ctx
            (withUserCookie
               (http.mkRequest [http.mkCookie "theme" "dark"] context.Background)
               u))
         UserCookieStateName
       = Some (any_UserCookie u)
    /\ GetCookie
         (withUserCookie
            (http.mkRequest [http.mkCookie "theme" "dark"] context.Background) u)
       = Returns u
    /\ Capability u = CapabilityAnonymous
    /\ Uuid u = [].
Proof.
  apply (ServeHTTP_no_session_cookie
           (mkCookieHandler rejectingCodec [] reportingDelegate) 0%nat
           (http.mkRequest [http.mkCookie "theme" "dark"] context.Background)
           emptyWorld).
  intros c Hin. simpl in Hin.
  apply list_elem_of_singleton in Hin. subst c. simpl.
  unfold SessionCookieName. discriminate.
Defined.

(** C8: on a request whose context holds no [*UserCookie] under
    [UserCookieStateName], as before the middleware has run, [GetCookie]
    panics: it returns neither a record nor an error. *)
Theorem GetCookie_panics_without_record (req : http.Request) :
  (forall p, context.Value (http.Request_Context req) UserCookieStateName
             <> Some (any_UserCookie p)) ->
  exists msg, GetCookie req = Panics msg.
Proof.
  intros Hnone. unfold GetCookie.
  destruct (context.Value (http.Request_Context req) UserCookieStateName)
    as [[p|v]|] eqn:Hval.
  - exfalso. apply (Hnone p). reflexivity.
  - eexists. reflexivity.
  - eexists. reflexivity.
Qed.

Lemma GetCookie_panics_without_record_witness :
  exists msg, GetCookie (sessionRequest "token") = Panics msg.
Proof.
  apply GetCookie_panics_without_record.
  intros p. simpl. discriminate.
Defined.










(** ** The key bootstrap *)

(** With a key file that can be read, the key is what the file holds and
    the host is left as it was. *)
Lemma makeCookieCryptoKey_readable
  (statepath cookiename : string) (h : Host) (key : list Byte.byte) :
  (ioutil.ReadFile (filepath.Join statepath cookiename) h).1 = Ok key ->
  makeCookieCryptoKey statepath cookiename h = (Ok key, h).
Proof.
  unfold makeCookieCryptoKey, mbind, State_bind, mret, State_ret, ioutil.ReadFile.
  destruct (files h !! filepath.Join statepath cookiename) as [f|]; simpl;
    [|discriminate].
  destruct (read_fault f); simpl; [discriminate|].
  intros [= <-]. reflexivity.
Qed.

(** C7, as stated, fails in its second half: a key file that exists but
    cannot be read is treated like a missing one. On [damagedHost] the
    read of [state/hashkey.dat] fails, and [makeCookieCryptoKey] returns a
    fresh key, not an error, and overwrites the file with it. *)
Lemma makeCookieCryptoKey_unreadable_returns_fresh_key :
  let path := filepath.Join "state" "hashkey.dat" in
  let run := makeCookieCryptoKey "state" "hashkey.dat" damagedHost in
  data <$> files damagedHost !! path = Some oldKey
  /\ (ioutil.ReadFile path damagedHost).1
     = Err "read state/hashkey.dat: input/output error"
  /\ run.1 = Ok freshBytes
  /\ freshBytes <> oldKey
  /\ data <$> files run.2 !! path = Some freshBytes.
Proof.
  repeat split; try reflexivity. vm_compute. discriminate.
Qed.

(** A write that fits on the disk appends all of [b]. *)
Lemma Write_fits (file : os.FileHandle) (b : list Byte.byte) (h : Host) (f : File) :
  files h !! file = Some f ->
  (length b <= room h)%nat ->
  os.Write file b h =
  ((length b, None),
   mkHost (<[file := mkFile (data f ++ b) (read_fault f) (trunc_fault f)]> (files h))
          (create_fault h) (room h - length b)%nat (entropy h)).
Proof.
  intros Hfile Hroom. unfold os.Write. rewrite Hfile.
  rewrite Nat.min_l by exact Hroom.
  rewrite firstn_all.
  destruct (decide (length b = length b)); [reflexivity | congruence].
Qed.

(** A write that does not fit reports fewer bytes than asked, and an
    error. *)
Lemma Write_short (file : os.FileHandle) (b : list Byte.byte) (h : Host) (f : File) :
  files h !! file = Some f ->
  (room h < length b)%nat ->
  exists (err : error) (h' : Host),
    os.Write file b h = ((room h, Some err), h').
Proof.
  intros Hfile Hroom. unfold os.Write. rewrite Hfile.
  rewrite Nat.min_r by lia.
  destruct (decide (room h = length b)); [lia|].
  eexists _, _. reflexivity.
Qed.

(** What [makeCookieCryptoKey] does with a freshly drawn key once the key
    file has been created or truncated: it returns the key when the write
    fits, leaving it in the file, and an error otherwise. *)
Lemma write_new_key (path : string) (key : list Byte.byte) (h : Host) (f : File) :
  files h !! path = Some f ->
  data f = [] ->
  match
    ('(n, err) ← os.Write path key;
     if bool_decide (err <> None) || negb (n =? length key)%nat
     then mret (Err ("Can't write new cookie " ++ path
                       ++ ".  len is " ++ pretty n
                       ++ " instead of " ++ pretty (length key)
                       ++ " or error: " ++ show_error err))
     else mret (Ok key)) h
  with
  | (Ok key', h') => key' = key /\ data <$> files h' !! path = Some key
  | (Err _, _) => (room h < length key)%nat
  end.
Proof.
  intros Hfile Hempty. unfold mbind, State_bind, mret, State_ret.
  destruct (le_lt_dec (length key) (room h)) as [Hroom|Hroom].
  - rewrite (Write_fits path key h f Hfile Hroom).
    rewrite bool_decide_eq_false_2 by (intros Hne; apply Hne; reflexivity).
    rewrite Nat.eqb_refl. cbn [orb negb].
    split; [reflexivity|].
    cbn [files]. rewrite lookup_insert_eq. cbn [fmap option_fmap option_map data].
    rewrite Hempty. reflexivity.
  - destruct (Write_short path key h f Hfile Hroom) as (err & h' & ->).
    rewrite bool_decide_eq_true_2 by discriminate.
    cbn [orb]. exact Hroom.
Qed.

(** C7, amended: when the key file cannot be read, be it missing or
    unreadable, [makeCookieCryptoKey] draws a new 32-byte key from the
    random source and returns it only after the key file holds it; it
    returns an error only when the random source falls short, the file
    cannot be created or truncated, or the write comes up short. *)
Theorem makeCookieCryptoKey_without_readable_key
  (statepath cookiename : string) (h : Host) (e : error) :
  let path := filepath.Join statepath cookiename in
  (ioutil.ReadFile path h).1 = Err e ->
  match makeCookieCryptoKey statepath cookiename h with
  | (Ok key, h') =>
      key = take 32 (entropy h)
      /\ length key = 32%nat
      /\ data <$> files h' !! path = Some key
  | (Err _, _) =>
      (length (entropy h) < 32)%nat
      \/ (exists f err, files h !! path = Some f /\ trunc_fault f = Some err)
      \/ (files h !! path = None /\ exists err, create_fault h = Some err)
      \/ (room h < 32)%nat
  end.
Proof.
  intros path Hread.
  unfold makeCookieCryptoKey. fold path.
  unfold mbind at 1, State_bind at 1.
  destruct (ioutil.ReadFile path h) as [[key|e'] h1] eqn:Hr;
    cbn [fst] in Hread; [discriminate|].
  assert (h1 = h) as ->.
  { unfold ioutil.ReadFile in Hr.
    destruct (files h !! path) as [f|]; [destruct (read_fault f)|];
      congruence. }
  clear Hr Hread.
  unfold mbind at 1, State_bind at 1, securecookie.GenerateRandomKey.
  destruct (decide (32 <= length (entropy h))%nat) as [Hent|Hent];
    [|left; lia].
  set (key := take 32 (entropy h)).
  assert (Hlen : length key = 32%nat) by (unfold key; rewrite length_take; lia).
  set (h2 := mkHost (files h) (create_fault h) (room h) (drop 32 (entropy h))).
  unfold mbind at 1, State_bind at 1, os.Create.
  change (files h2) with (files h). change (create_fault h2) with (create_fault h).
  destruct (files h !! path) as [f|] eqn:Hfile.
  - destruct (trunc_fault f) as [err|] eqn:Htrunc.
    + right. left. exists f, err. split; [reflexivity | exact Htrunc].
    + match goal with
      | |- match ?run ?h3 with _ => _ end =>
          pose proof (write_new_key path key h3
                        (mkFile [] (read_fault f) None)) as Hw;
          destruct (run h3) as [[key'|e''] h']
      end.
      * destruct Hw as [-> Hdata];
          [cbn [files]; apply lookup_insert_eq | reflexivity |].
        auto.
      * do 3 right. rewrite <- Hlen.
        apply Hw; [cbn [files]; apply lookup_insert_eq | reflexivity].
  - destruct (create_fault h) as [err|] eqn:Hcreate.
    + right. right. left. split; [reflexivity | exists err; reflexivity].
    + match goal with
      | |- match ?run ?h3 with _ => _ end =>
          pose proof (write_new_key path key h3 (mkFile [] None None)) as Hw;
          destruct (run h3) as [[key'|e''] h']
      end.
      * destruct Hw as [-> Hdata];
          [cbn [files]; apply lookup_insert_eq | reflexivity |].
        auto.
      * do 3 right. rewrite <- Hlen.
        apply Hw; [cbn [files]; apply lookup_insert_eq | reflexivity].
Qed.

Lemma makeCookieCryptoKey_without_readable_key_witness :
  match makeCookieCryptoKey "state" "hashkey.dat" freshHost with
  | (Ok key, h') =>
      key = take 32 (entropy freshHost)
      /\ length key = 32%nat
      /\ data <$> files h' !! filepath.Join "state" "hashkey.dat" = Some key
  | (Err _, _) =>
      (length (entropy freshHost) < 32)%nat
      \/ (exists f err,
            files freshHost !! filepath.Join "state" "hashkey.dat" = Some f
            /\ trunc_fault f = Some err)
      \/ (files freshHost !! filepath.Join "state" "hashkey.dat" = None
          /\ exists err, create_fault freshHost = Some err)
      \/ (room freshHost < 32)%nat
  end.
Proof.
  apply (makeCookieCryptoKey_without_readable_key "state" "hashkey.dat"
           freshHost "open state/hashkey.dat: no such file or directory").
  reflexivity.
Defined.

(** On a host without key files the first start ends with the fresh key
    returned and stored. *)
Lemma makeCookieCryptoKey_first_start :
  let run := makeCookieCryptoKey "state" "hashkey.dat" freshHost in
  run.1 = Ok freshBytes
  /\ data <$> files run.2 !! "state/hashkey.dat" = Some freshBytes.
Proof. split; reflexivity. Qed.

(** An error from the hash key ends [makeCookieTooling] with that error,
    before the block key is looked at. *)
Lemma makeCookieTooling_hashkey_error
  (new : list Byte.byte -> list Byte.byte -> securecookie.SecureCookie)
  (statepath : string) (h h' : Host) (err : error) :
  makeCookieCryptoKey statepath "hashkey.dat" h = (Err err, h') ->
  makeCookieTooling new statepath h = (Err err, h').
Proof.
  intros Hkey. unfold makeCookieTooling, mbind, State_bind.
  rewrite Hkey. reflexivity.
Qed.

(** ** Further properties of the capability queries *)

Lemma HasCapability_false (u : UserCookie) (cap : CapabilityType) :
  HasCapability u cap = false <-> Z.land (Capability u) cap = 0.
Proof.
  unfold HasCapability. rewrite negb_false_iff, Z.eqb_eq. reflexivity.
Qed.

(** X1: [IsAuthed] holds exactly when some mask tests true with
    [HasCapability]; and the mask [CapabilityAnonymous] itself tests false
    on every record, the anonymous one included, so that only [IsAuthed]
    tells an anonymous record apart. *)
Theorem IsAuthed_iff_some_capability (u : UserCookie) :
  (IsAuthed u = true <-> exists cap, HasCapability u cap = true)
  /\ HasCapability u CapabilityAnonymous = false.
Proof.
  split.
  - unfold IsAuthed, CapabilityAnonymous.
    rewrite negb_true_iff, Z.eqb_neq. split.
    + intros Hne. exists (Capability u).
      apply HasCapability_true. rewrite Z.land_diag. exact Hne.
    + intros [cap Hcap] Hzero. apply HasCapability_true in Hcap.
      rewrite Hzero, Z.land_0_l in Hcap. apply Hcap. reflexivity.
  - apply HasCapability_false. apply Z.land_0_r.
Qed.

(** X2: a mask built with [|] tests true when the record holds any one
    of its parts, not all of them; so [HasCapabilityIniviteUsers] is true
    exactly when the record may invite a volunteer or may invite an
    admin. *)
Theorem HasCapability_union_is_any (u : UserCookie) :
  (forall a b : CapabilityType,
     HasCapability u (Z.lor a b) = HasCapability u a || HasCapability u b)
  /\ HasCapabilityIniviteUsers u
     = HasCapability u CapabilityInviteNewVolunteer
       || HasCapability u CapabilityInviteNewAdmin.
Proof.
  assert (Hany : forall a b : CapabilityType,
            HasCapability u (Z.lor a b) = HasCapability u a || HasCapability u b).
  { intros a b. unfold HasCapability. rewrite Z.land_lor_distr_r.
    destruct (Z.land (Capability u) a =? 0) eqn:Ha;
      destruct (Z.land (Capability u) b =? 0) eqn:Hb; cbn [negb orb].
    - apply Z.eqb_eq in Ha, Hb. rewrite Ha, Hb. reflexivity.
    - apply negb_true_iff, Z.eqb_neq. rewrite Z.lor_eq_0_iff.
      apply Z.eqb_neq in Hb. tauto.
    - apply negb_true_iff, Z.eqb_neq. rewrite Z.lor_eq_0_iff.
      apply Z.eqb_neq in Ha. tauto.
    - apply negb_true_iff, Z.eqb_neq. rewrite Z.lor_eq_0_iff.
      apply Z.eqb_neq in Ha. tauto. }
  split; [exact Hany | apply Hany].
Qed.

(** Case analysis on a member of a list written out in full. *)
Ltac each_member H :=
  repeat (apply elem_of_cons in H as [->|H]);
  [ .. | apply elem_of_nil in H; destruct H ].

(** X3: the declared bits do not overlap: a record whose mask is one
    declared bit holds that capability and none of the other ten. *)
Theorem capabilityBits_independent
  (b b' : CapabilityType) (id : UUID) (t : Time) (name : string) :
  b ∈ capabilityBits ->
  b' ∈ capabilityBits ->
  (HasCapability (mkUserCookie id b t name) b' = true <-> b = b').
Proof.
  intros Hb Hb'. unfold capabilityBits in Hb, Hb'.
  each_member Hb; each_member Hb';
    (split; intros H; [ reflexivity || discriminate H
                      | reflexivity || discriminate H ]).
Qed.

Lemma capabilityBits_independent_witness :
  HasCapability
    (mkUserCookie [] CapabilityEditResource 0 "vera") CapabilityViewUsers = true
  <-> CapabilityEditResource = CapabilityViewUsers.
Proof.
  apply capabilityBits_independent; unfold capabilityBits; set_solver.
Defined.

(** X4: of the declared bits, a record with the mask
    [CapabilityAdministrator] holds view-users, invite-volunteer,
    invite-admin, edit-users and view-public-entry, and no other. *)
Theorem Administrator_holds_exactly
  (b : CapabilityType) (id : UUID) (t : Time) (name : string) :
  b ∈ capabilityBits ->
  (HasCapability (mkUserCookie id CapabilityAdministrator t name) b = true
   <-> b ∈ [ CapabilityViewUsers; CapabilityInviteNewVolunteer;
             CapabilityInviteNewAdmin; CapabilityEditUsers;
             CapabilityViewPublicResourceEntry ]).
Proof.
  intros Hb. unfold capabilityBits in Hb.
  each_member Hb;
    (split; intros H;
     [ (discriminate H) || (apply (bool_decide_unpack _); vm_compute; exact I)
     | reflexivity || (apply (bool_decide_pack _) in H; vm_compute in H;
                       destruct H) ]).
Qed.

Lemma Administrator_holds_exactly_witness :
  HasCapability
    (mkUserCookie [Byte.x01] CapabilityAdministrator 0 "ada")
    CapabilityEditOtherVolunteerComment = true
  <-> CapabilityEditOtherVolunteerComment
      ∈ [ CapabilityViewUsers; CapabilityInviteNewVolunteer;
          CapabilityInviteNewAdmin; CapabilityEditUsers;
          CapabilityViewPublicResourceEntry ].
Proof.
  apply Administrator_holds_exactly. unfold capabilityBits. set_solver.
Defined.

(** X5: of the declared bits, a record with the mask
    [CapabilityVolunteer] holds view-public-entry, view-own-comment,
    view-other-comment, edit-own-comment, edit-resource and
    invite-volunteer, and no other. *)
Theorem Volunteer_holds_exactly
  (b : CapabilityType) (id : UUID) (t : Time) (name : string) :
  b ∈ capabilityBits ->
  (HasCapability (mkUserCookie id CapabilityVolunteer t name) b = true
   <-> b ∈ [ CapabilityViewPublicResourceEntry;
             CapabilityViewOwnVolunteerComment;
             CapabilityViewOtherVolunteerComment;
             CapabilityEditOwnVolunteerComment;
             CapabilityEditResource; CapabilityInviteNewVolunteer ]).
Proof.
  intros Hb. unfold capabilityBits in Hb.
  each_member Hb;
    (split; intros H;
     [ (discriminate H) || (apply (bool_decide_unpack _); vm_compute; exact I)
     | reflexivity || (apply (bool_decide_pack _) in H; vm_compute in H;
                       destruct H) ]).
Qed.

Lemma Volunteer_holds_exactly_witness :
  HasCapability
    (mkUserCookie [Byte.x02] CapabilityVolunteer 0 "vera")
    CapabilityInviteNewAdmin = true
  <-> CapabilityInviteNewAdmin
      ∈ [ CapabilityViewPublicResourceEntry;
          CapabilityViewOwnVolunteerComment;
          CapabilityViewOtherVolunteerComment;
          CapabilityEditOwnVolunteerComment;
          CapabilityEditResource; CapabilityInviteNewVolunteer ].
Proof.
  apply Volunteer_holds_exactly. unfold capabilityBits. set_solver.
Defined.

(** X6: what the three convenience queries answer for the two roles: a
    volunteer may edit resources and invite users but not view users; an
    administrator may view users and invite users but not edit resources.
    Both are authenticated. *)
Theorem role_queries (id : UUID) (t : Time) (name : string) :
  let volunteer := mkUserCookie id CapabilityVolunteer t name in
  let admin := mkUserCookie id CapabilityAdministrator t name in
  (HasCapabilityEditResource volunteer = true
   /\ HasCapabilityViewUsers volunteer = false
   /\ HasCapabilityIniviteUsers volunteer = true
   /\ IsAuthed volunteer = true)
  /\ (HasCapabilityEditResource admin = false
      /\ HasCapabilityViewUsers admin = true
      /\ HasCapabilityIniviteUsers admin = true
      /\ IsAuthed admin = true).
Proof. repeat split. Qed.

(** ** Further properties of the middleware *)

Lemma findCookie_first
  (pre post : list http.Cookie) (c : http.Cookie) (name : string) :
  (forall c', c' ∈ pre -> http.Name c' <> name) ->
  http.Name c = name ->
  http.findCookie (pre ++ c :: post) name = Ok c.
Proof.
  intros Hpre Hc. induction pre as [|c0 pre IH]; simpl.
  - destruct (decide (http.Name c = name)); [reflexivity | contradiction].
  - destruct (decide (http.Name c0 = name)) as [Heq|_].
    + exfalso. apply (Hpre c0); [left | exact Heq].
    + apply IH. intros c' Hin. apply Hpre. right. exact Hin.
Qed.

Lemma Value_withUserCookie_other
  (req : http.Request) (u : UserCookie) (key : string) :
  key <> UserCookieStateName ->
  context.Value (http.Request_Context (withUserCookie req u)) key
  = context.Value (http.Request_Context req) key.
Proof.
  intros Hne. unfold withUserCookie. simpl.
  destruct (decide (UserCookieStateName = key)); congruence.
Qed.

(** X7: when a request carries several cookies named [session], only the
    first one is decoded. If it decodes, the delegate is called with the
    decoded record in the context, and the middleware has logged nothing
    and sent nothing on the way. *)
Theorem ServeHTTP_first_session_cookie_wins
  (cf : cookieHandler) (w : http.ResponseWriter) (req : http.Request) (s : World)
  (pre post : list http.Cookie) (c : http.Cookie) (u : UserCookie) :
  http.cookies req = (pre ++ c :: post)%list ->
  (forall c', c' ∈ pre -> http.Name c' <> SessionCookieName) ->
  http.Name c = SessionCookieName ->
  securecookie.Decode (cookiecodec cf) SessionCookieName (http.Value c)
    new_UserCookie = (u, None) ->
  ServeHTTP cf w req s = delegate cf w (withUserCookie req u) s
  /\ GetCookie (withUserCookie req u) = Returns u.
Proof.
  intros Hcookies Hpre Hc Hdec. split.
  - apply (ServeHTTP_decoded cf w req s c u); [|exact Hdec].
    unfold http.Request_Cookie. rewrite Hcookies.
    apply findCookie_first; assumption.
  - apply GetCookie_withUserCookie.
Qed.

Lemma ServeHTTP_first_session_cookie_wins_witness :
  ServeHTTP (mkCookieHandler volunteerCodec [] reportingDelegate) 0%nat
    crowdedRequest emptyWorld
  = reportingDelegate 0%nat (withUserCookie crowdedRequest volunteerUser)
      emptyWorld
  /\ GetCookie (withUserCookie crowdedRequest volunteerUser)
     = Returns volunteerUser.
Proof.
  apply (ServeHTTP_first_session_cookie_wins
           (mkCookieHandler volunteerCodec [] reportingDelegate) 0%nat
           crowdedRequest emptyWorld
           [http.mkCookie "theme" "dark"]
           [http.mkCookie SessionCookieName "garbage"]
           (http.mkCookie SessionCookieName "token") volunteerUser).
  - reflexivity.
  - intros c' Hin. apply list_elem_of_singleton in Hin. subst c'.
    simpl. unfold SessionCookieName. discriminate.
  - reflexivity.
  - reflexivity.
Defined.

(** X8: whatever the request carries, a handler built by
    [makeCookieHandler] calls its delegate, with a request on which
    [GetCookie] returns a record instead of panicking, even when the
    incoming context already held something under [UserCookieStateName];
    the cookies and every other context key reach the delegate
    unchanged. *)
Theorem makeCookieHandler_hands_on_request
  (hf : HandlerFactory) (d : Handler)
  (w : http.ResponseWriter) (req : http.Request) (s : World) :
  exists (u : UserCookie) (s' : World),
    makeCookieHandler hf d w req s = d w (withUserCookie req u) s'
    /\ GetCookie (withUserCookie req u) = Returns u
    /\ http.cookies (withUserCookie req u) = http.cookies req
    /\ forall key, key <> UserCookieStateName ->
         context.Value (http.Request_Context (withUserCookie req u)) key
         = context.Value (http.Request_Context req) key.
Proof.
  unfold makeCookieHandler.
  set (cf := mkCookieHandler (hf_cookiecodec hf) [] d).
  assert (Hrest : forall u,
            GetCookie (withUserCookie req u) = Returns u
            /\ http.cookies (withUserCookie req u) = http.cookies req
            /\ forall key, key <> UserCookieStateName ->
                 context.Value (http.Request_Context (withUserCookie req u)) key
                 = context.Value (http.Request_Context req) key).
  { intros u. split; [apply GetCookie_withUserCookie|].
    split; [reflexivity|]. intros key. apply Value_withUserCookie_other. }
  destruct (http.Request_Cookie req SessionCookieName) as [c|e] eqn:Hc.
  - destruct (securecookie.Decode (cookiecodec cf) SessionCookieName
                (http.Value c) new_UserCookie) as [u [err|]] eqn:Hdec.
    + eexists u, _. split; [|apply Hrest].
      apply (ServeHTTP_undecodable cf w req s c u err Hc Hdec).
    + exists u, s. split; [|apply Hrest].
      apply (ServeHTTP_decoded cf w req s c u Hc Hdec).
  - eexists _, _. split; [|apply Hrest].
    apply (ServeHTTP_no_cookie cf w req s e Hc).
Qed.

(** X9: the middleware answers nothing by itself unless the first
    session cookie fails to decode. In the two other outcomes the delegate
    starts from a response that is exactly what it was, and from a log
    that is what it was, or that with the one line [anonymous access]
    added. *)
Theorem ServeHTTP_silent_unless_undecodable
  (cf : cookieHandler) (w : http.ResponseWriter) (req : http.Request) (s : World) :
  exists (u : UserCookie) (s' : World),
    ServeHTTP cf w req s = delegate cf w (withUserCookie req u) s'
    /\ ((exists c err,
           http.Request_Cookie req SessionCookieName = Ok c
           /\ (securecookie.Decode (cookiecodec cf) SessionCookieName
                 (http.Value c) new_UserCookie).2 = Some err)
        \/ (sent s' = sent s
            /\ (stdlog s' = stdlog s
                \/ stdlog s'
                   = (stdlog s ++ [fmt.Sprintln ["anonymous access"]])%list))).
Proof.
  destruct (http.Request_Cookie req SessionCookieName) as [c|e] eqn:Hc.
  - destruct (securecookie.Decode (cookiecodec cf) SessionCookieName
                (http.Value c) new_UserCookie) as [u [err|]] eqn:Hdec.
    + eexists u, _. split.
      * apply (ServeHTTP_undecodable cf w req s c u err Hc Hdec).
      * left. exists c, err. rewrite Hdec. split; reflexivity.
    + exists u, s. split.
      * apply (ServeHTTP_decoded cf w req s c u Hc Hdec).
      * right. split; [reflexivity | left; reflexivity].
  - eexists _, _. split.
    + apply (ServeHTTP_no_cookie cf w req s e Hc).
    + right. split; [reflexivity | right; reflexivity].
Qed.

(** X10: the revocation list is never consulted: a session cookie that
    decodes to a record whose uuid is on the handler's [revokelist] is
    handed to the delegate like any other. *)
Theorem ServeHTTP_forwards_revoked_id
  (cf : cookieHandler) (w : http.ResponseWriter) (req : http.Request) (s : World)
  (c : http.Cookie) (u : UserCookie) :
  http.Request_Cookie req SessionCookieName = Ok c ->
  securecookie.Decode (cookiecodec cf) SessionCookieName (http.Value c)
    new_UserCookie = (u, None) ->
  Uuid u ∈ revokelist cf ->
  ServeHTTP cf w req s = delegate cf w (withUserCookie req u) s
  /\ GetCookie (withUserCookie req u) = Returns u.
Proof.
  intros Hc Hdec _. split.
  - apply (ServeHTTP_decoded cf w req s c u Hc Hdec).
  - apply GetCookie_withUserCookie.
Qed.

Lemma ServeHTTP_forwards_revoked_id_witness :
  ServeHTTP (mkCookieHandler volunteerCodec [Uuid volunteerUser] reportingDelegate)
    0%nat (sessionRequest "token") emptyWorld
  = reportingDelegate 0%nat
      (withUserCookie (sessionRequest "token") volunteerUser) emptyWorld
  /\ GetCookie (withUserCookie (sessionRequest "token") volunteerUser)
     = Returns volunteerUser.
Proof.
  apply (ServeHTTP_forwards_revoked_id
           (mkCookieHandler volunteerCodec [Uuid volunteerUser] reportingDelegate)
           0%nat (sessionRequest "token") emptyWorld
           (http.mkCookie SessionCookieName "token") volunteerUser).
  - reflexivity.
  - reflexivity.
  - simpl. left.
Defined.

(** X11: after a failed decode the delegate receives whatever the codec
    left in the record: the middleware does not reset it. With a codec
    that fills the record in before it reports the error, the delegate
    sees those fields, under an error response already sent. *)
Theorem ServeHTTP_undecodable_forwards_leftover
  (cf : cookieHandler) (w : http.ResponseWriter) (req : http.Request) (s : World)
  (c : http.Cookie) (u : UserCookie) (err : error) :
  http.Request_Cookie req SessionCookieName = Ok c ->
  securecookie.Decode (cookiecodec cf) SessionCookieName (http.Value c)
    new_UserCookie = (u, Some err) ->
  ServeHTTP cf w req s =
    delegate cf w (withUserCookie req u)
      (exec (respondWithError w (fmt.Sprintln ["Malformed session cookie"; err]))
         (exec (log.Println
                  ["request had a cookie but it was not decodeable:"; err]) s))
  /\ GetCookie (withUserCookie req u) = Returns u.
Proof.
  intros Hc Hdec. split.
  - apply (ServeHTTP_undecodable cf w req s c u err Hc Hdec).
  - apply GetCookie_withUserCookie.
Qed.

Lemma ServeHTTP_undecodable_forwards_leftover_witness :
  let cf := mkCookieHandler leakyCodec [] reportingDelegate in
  let err := "securecookie: expired timestamp" in
  ServeHTTP cf 0%nat (sessionRequest "token") emptyWorld =
    reportingDelegate 0%nat (withUserCookie (sessionRequest "token") volunteerUser)
      (exec (respondWithError 0%nat
               (fmt.Sprintln ["Malformed session cookie"; err]))
         (exec (log.Println
                  ["request had a cookie but it was not decodeable:"; err])
            emptyWorld))
  /\ GetCookie (withUserCookie (sessionRequest "token") volunteerUser)
     = Returns volunteerUser.
Proof.
  apply (ServeHTTP_undecodable_forwards_leftover
           (mkCookieHandler leakyCodec [] reportingDelegate) 0%nat
           (sessionRequest "token") emptyWorld
           (http.mkCookie SessionCookieName "token") volunteerUser
           "securecookie: expired timestamp").
  - reflexivity.
  - reflexivity.
Defined.

(** ** Further properties of the key bootstrap *)

Lemma ReadFile_absent (path : string) (h : Host) :
  files h !! path = None ->
  ioutil.ReadFile path h
  = (Err ("open " ++ path ++ ": no such file or directory"), h).
Proof. intros Hnone. unfold ioutil.ReadFile. rewrite Hnone. reflexivity. Qed.

Lemma ReadFile_readable (path : string) (h : Host) (f : File) :
  files h !! path = Some f ->
  read_fault f = None ->
  ioutil.ReadFile path h = (Ok (data f), h).
Proof.
  intros Hfile Hread. unfold ioutil.ReadFile. rewrite Hfile, Hread. reflexivity.
Qed.

Lemma ReadFile_keeps_host (path : string) (h : Host) :
  (ioutil.ReadFile path h).2 = h.
Proof.
  unfold ioutil.ReadFile.
  destruct (files h !! path) as [f|]; [destruct (read_fault f)|]; reflexivity.
Qed.

(** A write that does not fit appends what the disk still takes. *)
Lemma Write_cut (file : os.FileHandle) (b : list Byte.byte) (h : Host) (f : File) :
  files h !! file = Some f ->
  (room h < length b)%nat ->
  os.Write file b h =
  ((room h, Some ("write " ++ file ++ ": no space left on device")),
   mkHost (<[file := mkFile (data f ++ take (room h) b)
                            (read_fault f) (trunc_fault f)]> (files h))
          (create_fault h) 0%nat (entropy h)).
Proof.
  intros Hfile Hroom. unfold os.Write. rewrite Hfile.
  rewrite Nat.min_r by lia.
  destruct (decide (room h = length b)); [lia|].
  rewrite Nat.sub_diag. reflexivity.
Qed.

(** The host after a key has been drawn, and the host after that key has
    gone into a new key file. *)
Lemma makeCookieCryptoKey_absent_written
  (statepath cookiename : string) (h : Host) :
  let path := filepath.Join statepath cookiename in
  files h !! path = None ->
  create_fault h = None ->
  (32 <= length (entropy h))%nat ->
  (32 <= room h)%nat ->
  makeCookieCryptoKey statepath cookiename h
  = (Ok (take 32 (entropy h)),
     mkHost (<[path := mkFile (take 32 (entropy h)) None None]> (files h))
            None (room h - 32)%nat (drop 32 (entropy h))).
Proof.
  intros path Hnone Hcreate Hent Hroom.
  unfold makeCookieCryptoKey. fold path.
  unfold mbind, State_bind, mret, State_ret.
  rewrite (ReadFile_absent path h Hnone).
  unfold securecookie.GenerateRandomKey.
  destruct (decide (32 <= length (entropy h))%nat) as [_|]; [|lia].
  unfold os.Create. cbn [files create_fault room entropy].
  rewrite Hnone, Hcreate.
  set (key := take 32 (entropy h)).
  assert (Hlen : length key = 32%nat) by (unfold key; rewrite length_take; lia).
  erewrite Write_fits;
    [ | cbn [files]; apply lookup_insert_eq | cbn [room]; lia ].
  rewrite bool_decide_eq_false_2 by (intros Hne; apply Hne; reflexivity).
  rewrite Nat.eqb_refl. cbn [orb negb files create_fault room entropy data
                             read_fault trunc_fault].
  rewrite insert_insert_eq, Hlen. reflexivity.
Qed.

Lemma makeCookieCryptoKey_absent_cut
  (statepath cookiename : string) (h : Host) :
  let path := filepath.Join statepath cookiename in
  files h !! path = None ->
  create_fault h = None ->
  (32 <= length (entropy h))%nat ->
  (room h < 32)%nat ->
  exists msg : error,
    makeCookieCryptoKey statepath cookiename h
    = (Err msg,
       mkHost (<[path := mkFile (take (room h) (entropy h)) None None]> (files h))
              None 0%nat (drop 32 (entropy h))).
Proof.
  intros path Hnone Hcreate Hent Hroom.
  unfold makeCookieCryptoKey. fold path.
  unfold mbind, State_bind, mret, State_ret.
  rewrite (ReadFile_absent path h Hnone).
  unfold securecookie.GenerateRandomKey.
  destruct (decide (32 <= length (entropy h))%nat) as [_|]; [|lia].
  unfold os.Create. cbn [files create_fault room entropy].
  rewrite Hnone, Hcreate.
  set (key := take 32 (entropy h)).
  assert (Hlen : length key = 32%nat) by (unfold key; rewrite length_take; lia).
  erewrite Write_cut;
    [ | cbn [files]; apply lookup_insert_eq | cbn [room]; lia ].
  rewrite bool_decide_eq_true_2 by discriminate.
  cbn [orb files create_fault room entropy data read_fault trunc_fault].
  eexists. f_equal. rewrite insert_insert_eq.
  unfold key. rewrite take_take, Nat.min_l by lia. reflexivity.
Qed.

Lemma makeCookieCryptoKey_dry
  (statepath cookiename : string) (h : Host) (e : error) :
  (ioutil.ReadFile (filepath.Join statepath cookiename) h).1 = Err e ->
  (length (entropy h) < 32)%nat ->
  makeCookieCryptoKey statepath cookiename h
  = (Err ("No cookie for " ++ cookiename ++ " and can't make one"),
     mkHost (files h) (create_fault h) (room h) []).
Proof.
  intros Hread Hent.
  unfold makeCookieCryptoKey, mbind, State_bind, mret, State_ret.
  pose proof (ReadFile_keeps_host (filepath.Join statepath cookiename) h) as Hkeep.
  destruct (ioutil.ReadFile (filepath.Join statepath cookiename) h)
    as [[key|e'] h1]; cbn [fst snd] in Hread, Hkeep; [discriminate|].
  subst h1. unfold securecookie.GenerateRandomKey.
  destruct (decide (32 <= length (entropy h))%nat); [lia | reflexivity].
Qed.

(** Whatever happens, only the key file itself is created or changed. *)
Lemma makeCookieCryptoKey_other_files
  (statepath cookiename : string) (h : Host) (p : string) :
  p <> filepath.Join statepath cookiename ->
  files (makeCookieCryptoKey statepath cookiename h).2 !! p = files h !! p.
Proof.
  intros Hp. set (path := filepath.Join statepath cookiename) in *.
  unfold makeCookieCryptoKey. fold path.
  unfold mbind, State_bind, mret, State_ret.
  pose proof (ReadFile_keeps_host path h) as Hkeep.
  destruct (ioutil.ReadFile path h) as [[key|e'] h1];
    cbn [snd] in Hkeep; subst h1; [reflexivity|].
  unfold securecookie.GenerateRandomKey.
  destruct (decide (32 <= length (entropy h))%nat); [|reflexivity].
  unfold os.Create. cbn [files create_fault room entropy].
  destruct (files h !! path) as [f|] eqn:Hfile.
  - destruct (trunc_fault f); [reflexivity|].
    unfold os.Write. cbn [files]. rewrite lookup_insert_eq.
    match goal with
    | |- context [if ?b then _ else _] => destruct b
    end; cbn [snd files]; rewrite !lookup_insert_ne by congruence; reflexivity.
  - destruct (create_fault h); [reflexivity|].
    unfold os.Write. cbn [files]. rewrite lookup_insert_eq.
    match goal with
    | |- context [if ?b then _ else _] => destruct b
    end; cbn [snd files]; rewrite !lookup_insert_ne by congruence; reflexivity.
Qed.

Lemma makeCookieCryptoKey_absent_uncreatable
  (statepath cookiename : string) (h : Host) (err : error) :
  let path := filepath.Join statepath cookiename in
  files h !! path = None ->
  create_fault h = Some err ->
  (32 <= length (entropy h))%nat ->
  makeCookieCryptoKey statepath cookiename h
  = (Err ("Can't create a " ++ path ++ " to hold new cookie: " ++ err),
     mkHost (files h) (create_fault h) (room h) (drop 32 (entropy h))).
Proof.
  intros path Hnone Hcreate Hent.
  unfold makeCookieCryptoKey. fold path.
  unfold mbind, State_bind, mret, State_ret.
  rewrite (ReadFile_absent path h Hnone).
  unfold securecookie.GenerateRandomKey.
  destruct (decide (32 <= length (entropy h))%nat) as [_|]; [|lia].
  unfold os.Create. cbn [files create_fault room entropy].
  rewrite Hnone, Hcreate. reflexivity.
Qed.

(** A first start that returns a key had a random source and a disk
    that were up to it. *)
Lemma makeCookieCryptoKey_absent_Ok_inv
  (statepath cookiename : string) (h : Host) (key : list Byte.byte) :
  files h !! filepath.Join statepath cookiename = None ->
  (makeCookieCryptoKey statepath cookiename h).1 = Ok key ->
  create_fault h = None
  /\ (32 <= length (entropy h))%nat
  /\ (32 <= room h)%nat.
Proof.
  intros Hnone Hok.
  destruct (le_lt_dec 32 (length (entropy h))) as [Hent|Hent].
  - destruct (create_fault h) as [err|] eqn:Hcreate.
    + rewrite (makeCookieCryptoKey_absent_uncreatable _ _ _ err Hnone Hcreate Hent)
        in Hok. discriminate Hok.
    + destruct (le_lt_dec 32 (room h)) as [Hroom|Hroom]; [auto|].
      destruct (makeCookieCryptoKey_absent_cut _ _ _ Hnone Hcreate Hent Hroom)
        as [msg Hcut].
      rewrite Hcut in Hok. discriminate Hok.
  - rewrite (makeCookieCryptoKey_dry statepath cookiename h
               ("open " ++ filepath.Join statepath cookiename
                  ++ ": no such file or directory")) in Hok.
    + discriminate Hok.
    + rewrite (ReadFile_absent _ _ Hnone). reflexivity.
    + exact Hent.
Qed.

Lemma key_paths_differ (statepath : string) :
  filepath.Join statepath "hashkey.dat" <> filepath.Join statepath "blockkey.dat".
Proof.
  unfold filepath.Join.
  destruct (decide (statepath = EmptyString)); [discriminate|].
  destruct (decide ("hashkey.dat" = EmptyString)); [discriminate|].
  destruct (decide ("blockkey.dat" = EmptyString)); [discriminate|].
  intros Heq. apply String.app_inj in Heq. discriminate Heq.
Qed.

Lemma makeCookieCryptoKey_readable_file
  (statepath cookiename : string) (h : Host) (f : File) :
  files h !! filepath.Join statepath cookiename = Some f ->
  read_fault f = None ->
  makeCookieCryptoKey statepath cookiename h = (Ok (data f), h).
Proof.
  intros Hfile Hread. apply makeCookieCryptoKey_readable.
  rewrite (ReadFile_readable _ _ _ Hfile Hread). reflexivity.
Qed.

(** X12: a key file that can be read is never replaced: its contents are
    returned as the key, whatever their length, and the host is left as it
    was, with no byte drawn from the random source and no file written. *)
Theorem makeCookieCryptoKey_keeps_readable_key
  (statepath cookiename : string) (h : Host) (f : File) :
  files h !! filepath.Join statepath cookiename = Some f ->
  read_fault f = None ->
  makeCookieCryptoKey statepath cookiename h = (Ok (data f), h).
Proof. apply makeCookieCryptoKey_readable_file. Qed.

Lemma makeCookieCryptoKey_keeps_readable_key_witness :
  makeCookieCryptoKey "state" "hashkey.dat" provisionedHost
  = (Ok [Byte.x61; Byte.x62; Byte.x63], provisionedHost).
Proof.
  apply (makeCookieCryptoKey_keeps_readable_key "state" "hashkey.dat"
           provisionedHost (mkFile [Byte.x61; Byte.x62; Byte.x63] None None)).
  - reflexivity.
  - reflexivity.
Defined.

(** X13: the key survives a restart: when a start without a key file
    returns a key, that key has 32 bytes, and running the bootstrap again
    on the host it left behind returns the same key and changes nothing
    more. *)
Theorem makeCookieCryptoKey_restart_same_key
  (statepath cookiename : string) (h h' : Host) (key : list Byte.byte) :
  files h !! filepath.Join statepath cookiename = None ->
  makeCookieCryptoKey statepath cookiename h = (Ok key, h') ->
  length key = 32%nat
  /\ makeCookieCryptoKey statepath cookiename h' = (Ok key, h').
Proof.
  intros Hnone Hrun.
  destruct (makeCookieCryptoKey_absent_Ok_inv statepath cookiename h key Hnone)
    as (Hcreate & Hent & Hroom); [rewrite Hrun; reflexivity|].
  rewrite (makeCookieCryptoKey_absent_written _ _ _ Hnone Hcreate Hent Hroom)
    in Hrun.
  injection Hrun as <- <-. split.
  - rewrite length_take. lia.
  - apply (makeCookieCryptoKey_readable_file statepath cookiename _
             (mkFile (take 32 (entropy h)) None None)).
    + cbn [files]. apply lookup_insert_eq.
    + reflexivity.
Qed.

Lemma makeCookieCryptoKey_restart_same_key_witness :
  length freshBytes = 32%nat
  /\ makeCookieCryptoKey "state" "hashkey.dat"
       (makeCookieCryptoKey "state" "hashkey.dat" freshHost).2
     = (Ok freshBytes, (makeCookieCryptoKey "state" "hashkey.dat" freshHost).2).
Proof.
  apply (makeCookieCryptoKey_restart_same_key "state" "hashkey.dat" freshHost).
  - reflexivity.
  - reflexivity.
Defined.

(** X14: a write that comes up short is not undone. When there is no key
    file, the key can be drawn and the file created, but the disk takes
    fewer than 32 bytes, the bootstrap returns an error and leaves the
    beginning of the key in the file; the next start reads that file and
    returns its contents as the key, without an error, although it is
    shorter than 32 bytes. *)
Theorem makeCookieCryptoKey_short_write_then_restart
  (statepath cookiename : string) (h : Host) :
  files h !! filepath.Join statepath cookiename = None ->
  create_fault h = None ->
  (32 <= length (entropy h))%nat ->
  (room h < 32)%nat ->
  exists (msg : error) (h' : Host),
    makeCookieCryptoKey statepath cookiename h = (Err msg, h')
    /\ makeCookieCryptoKey statepath cookiename h'
       = (Ok (take (room h) (entropy h)), h')
    /\ length (take (room h) (entropy h)) = room h.
Proof.
  intros Hnone Hcreate Hent Hroom.
  destruct (makeCookieCryptoKey_absent_cut _ _ _ Hnone Hcreate Hent Hroom)
    as [msg Hcut].
  eexists msg, _. split; [exact Hcut|]. split.
  - apply (makeCookieCryptoKey_readable_file statepath cookiename _
             (mkFile (take (room h) (entropy h)) None None)).
    + cbn [files]. apply lookup_insert_eq.
    + reflexivity.
  - rewrite length_take. lia.
Qed.

Lemma makeCookieCryptoKey_short_write_then_restart_witness :
  exists (msg : error) (h' : Host),
    makeCookieCryptoKey "state" "hashkey.dat" crampedHost = (Err msg, h')
    /\ makeCookieCryptoKey "state" "hashkey.dat" h'
       = (Ok (take (room crampedHost) (entropy crampedHost)), h')
    /\ length (take (room crampedHost) (entropy crampedHost)) = room crampedHost.
Proof.
  apply (makeCookieCryptoKey_short_write_then_restart
           "state" "hashkey.dat" crampedHost).
  - reflexivity.
  - reflexivity.
  - vm_compute. lia.
  - vm_compute. lia.
Defined.



(** X16: the key is drawn before the file is touched. When the key file
    cannot be read and the random source yields fewer than 32 bytes, the
    bootstrap returns the error that names the cookie and leaves every
    file as it was; an unreadable key file is not truncated. *)
Theorem makeCookieCryptoKey_without_entropy
  (statepath cookiename : string) (h : Host) (e : error) :
  (ioutil.ReadFile (filepath.Join statepath cookiename) h).1 = Err e ->
  (length (entropy h) < 32)%nat ->
  (makeCookieCryptoKey statepath cookiename h).1
  = Err ("No cookie for " ++ cookiename ++ " and can't make one")
  /\ files (makeCookieCryptoKey statepath cookiename h).2 = files h.
Proof.
  intros Hread Hent.
  rewrite (makeCookieCryptoKey_dry statepath cookiename h e Hread Hent).
  split; reflexivity.
Qed.

Lemma makeCookieCryptoKey_without_entropy_witness :
  (makeCookieCryptoKey "state" "hashkey.dat" dryHost).1
  = Err ("No cookie for " ++ "hashkey.dat" ++ " and can't make one")
  /\ files (makeCookieCryptoKey "state" "hashkey.dat" dryHost).2 = files dryHost.
Proof.
  apply (makeCookieCryptoKey_without_entropy "state" "hashkey.dat" dryHost
           "open state/hashkey.dat: no such file or directory").
  - reflexivity.
  - vm_compute. lia.
Defined.

Section ToolingProperties.

Variable New : list Byte.byte -> list Byte.byte -> securecookie.SecureCookie.
Variable statepath : string.

Local Abbreviation hashpath := (filepath.Join statepath "hashkey.dat").
Local Abbreviation blockpath := (filepath.Join statepath "blockkey.dat").

(** What a first start with both key files missing leaves behind. *)
Lemma makeCookieTooling_absent_written (h : Host) :
  files h !! hashpath = None ->
  files h !! blockpath = None ->
  create_fault h = None ->
  (64 <= length (entropy h))%nat ->
  (64 <= room h)%nat ->
  makeCookieTooling New statepath h
  = (Ok (New (take 32 (entropy h)) (take 32 (drop 32 (entropy h)))),
     mkHost
       (<[blockpath := mkFile (take 32 (drop 32 (entropy h))) None None]>
          (<[hashpath := mkFile (take 32 (entropy h)) None None]> (files h)))
       None (room h - 32 - 32)%nat (drop 32 (drop 32 (entropy h)))).
Proof.
  intros Hhash Hblock Hcreate Hent Hroom.
  unfold makeCookieTooling, mbind, State_bind, mret, State_ret.
  rewrite (makeCookieCryptoKey_absent_written statepath "hashkey.dat" h)
    by (assumption || lia).
  rewrite (makeCookieCryptoKey_absent_written statepath "blockkey.dat").
  - reflexivity.
  - cbn [files]. rewrite lookup_insert_ne by apply key_paths_differ.
    exact Hblock.
  - reflexivity.
  - cbn [entropy]. rewrite length_drop. lia.
  - cbn [room]. lia.
Qed.

(** X17: on a first start, with both key files missing, the two keys are
    the first and the second 32 bytes the random source yields, each is
    stored in its own file, and the codec is built from the hash key and
    the block key in that order. *)
Theorem makeCookieTooling_first_start (h : Host) :
  files h !! hashpath = None ->
  files h !! blockpath = None ->
  create_fault h = None ->
  (64 <= length (entropy h))%nat ->
  (64 <= room h)%nat ->
  let hashkey := take 32 (entropy h) in
  let blockkey := take 32 (drop 32 (entropy h)) in
  let run := makeCookieTooling New statepath h in
  run.1 = Ok (New hashkey blockkey)
  /\ length hashkey = 32%nat
  /\ length blockkey = 32%nat
  /\ data <$> files run.2 !! hashpath = Some hashkey
  /\ data <$> files run.2 !! blockpath = Some blockkey.
Proof.
  intros Hhash Hblock Hcreate Hent Hroom hashkey blockkey run.
  unfold run.
  rewrite (makeCookieTooling_absent_written h Hhash Hblock Hcreate Hent Hroom).
  cbn [fst snd files].
  split; [reflexivity|].
  split; [unfold hashkey; rewrite length_take; lia|].
  split; [unfold blockkey; rewrite length_take, length_drop; lia|].
  split.
  - rewrite lookup_insert_ne by (intros Heq; apply (key_paths_differ statepath);
                                 symmetry; exact Heq).
    rewrite lookup_insert_eq. reflexivity.
  - rewrite lookup_insert_eq. reflexivity.
Qed.

(** X18: the codec survives a restart: when a start with both key files
    missing succeeds, starting again on the host it left behind builds the
    codec from the same two keys and changes nothing on the host. *)
Theorem makeCookieTooling_restart_same_keys
  (h h' : Host) (codec : securecookie.SecureCookie) :
  files h !! hashpath = None ->
  files h !! blockpath = None ->
  makeCookieTooling New statepath h = (Ok codec, h') ->
  exists hashkey blockkey : list Byte.byte,
    codec = New hashkey blockkey
    /\ makeCookieTooling New statepath h' = (Ok (New hashkey blockkey), h').
Proof.
  intros Hhash Hblock Hrun.
  unfold makeCookieTooling, mbind, State_bind, mret, State_ret in Hrun.
  destruct (makeCookieCryptoKey statepath "hashkey.dat" h)
    as [[hashkey|e1] h1] eqn:Hone; [|discriminate Hrun].
  destruct (makeCookieCryptoKey statepath "blockkey.dat" h1)
    as [[blockkey|e2] h2] eqn:Htwo; [|discriminate Hrun].
  injection Hrun as <- <-.
  assert (Hblock1 : files h1 !! blockpath = None).
  { replace h1 with (makeCookieCryptoKey statepath "hashkey.dat" h).2
      by (rewrite Hone; reflexivity).
    rewrite makeCookieCryptoKey_other_files; [exact Hblock|].
    intros Heq. apply (key_paths_differ statepath). symmetry. exact Heq. }
  assert (Hhash1 : exists f, files h1 !! hashpath = Some f
                             /\ read_fault f = None /\ data f = hashkey).
  { destruct (makeCookieCryptoKey_absent_Ok_inv statepath "hashkey.dat" h hashkey
                Hhash) as (Hc & He & Hr); [rewrite Hone; reflexivity|].
    rewrite (makeCookieCryptoKey_absent_written _ _ _ Hhash Hc He Hr) in Hone.
    injection Hone as <- <-. eexists.
    split; [cbn [files]; apply lookup_insert_eq | split; reflexivity]. }
  assert (Hblock2 : exists f, files h2 !! blockpath = Some f
                              /\ read_fault f = None /\ data f = blockkey).
  { destruct (makeCookieCryptoKey_absent_Ok_inv statepath "blockkey.dat" h1
                blockkey Hblock1) as (Hc & He & Hr); [rewrite Htwo; reflexivity|].
    rewrite (makeCookieCryptoKey_absent_written _ _ _ Hblock1 Hc He Hr) in Htwo.
    injection Htwo as <- <-. eexists.
    split; [cbn [files]; apply lookup_insert_eq | split; reflexivity]. }
  assert (Hhash2 : files h2 !! hashpath = files h1 !! hashpath).
  { replace h2 with (makeCookieCryptoKey statepath "blockkey.dat" h1).2
      by (rewrite Htwo; reflexivity).
    apply makeCookieCryptoKey_other_files, key_paths_differ. }
  destruct Hhash1 as (f1 & Hf1 & Hr1 & <-).
  destruct Hblock2 as (f2 & Hf2 & Hr2 & <-).
  exists (data f1), (data f2). split; [reflexivity|].
  unfold makeCookieTooling, mbind, State_bind, mret, State_ret.
  rewrite (makeCookieCryptoKey_readable_file statepath "hashkey.dat" h2 f1)
    by (try exact Hr1; rewrite Hhash2; exact Hf1).
  rewrite (makeCookieCryptoKey_readable_file statepath "blockkey.dat" h2 f2)
    by (try exact Hr2; exact Hf2).
  reflexivity.
Qed.

(** X19: when the hash key cannot be had, [makeCookieTooling] returns
    that error as it is and does not go on to the block key: its file is
    neither created nor changed. *)
Theorem makeCookieTooling_hashkey_error_skips_blockkey
  (h h' : Host) (err : error) :
  makeCookieCryptoKey statepath "hashkey.dat" h = (Err err, h') ->
  makeCookieTooling New statepath h = (Err err, h')
  /\ files h' !! blockpath = files h !! blockpath.
Proof.
  intros Hone. split.
  - apply makeCookieTooling_hashkey_error. exact Hone.
  - replace h' with (makeCookieCryptoKey statepath "hashkey.dat" h).2
      by (rewrite Hone; reflexivity).
    apply makeCookieCryptoKey_other_files.
    intros Heq. apply (key_paths_differ statepath). symmetry. exact Heq.
Qed.

End ToolingProperties.

Lemma makeCookieTooling_first_start_witness :
  let hashkey := take 32 (entropy roomyHost) in
  let blockkey := take 32 (drop 32 (entropy roomyHost)) in
  let run := makeCookieTooling lengthCodec "state" roomyHost in
  run.1 = Ok (lengthCodec hashkey blockkey)
  /\ length hashkey = 32%nat
  /\ length blockkey = 32%nat
  /\ data <$> files run.2 !! filepath.Join "state" "hashkey.dat" = Some hashkey
  /\ data <$> files run.2 !! filepath.Join "state" "blockkey.dat" = Some blockkey.
Proof.
  apply (makeCookieTooling_first_start lengthCodec "state" roomyHost).
  - reflexivity.
  - reflexivity.
  - reflexivity.
  - vm_compute. lia.
  - vm_compute. lia.
Defined.

Lemma makeCookieTooling_restart_same_keys_witness :
  exists hashkey blockkey : list Byte.byte,
    lengthCodec freshBytes oldKey = lengthCodec hashkey blockkey
    /\ makeCookieTooling lengthCodec "state"
         (makeCookieTooling lengthCodec "state" roomyHost).2
       = (Ok (lengthCodec hashkey blockkey),
          (makeCookieTooling lengthCodec "state" roomyHost).2).
Proof.
  apply (makeCookieTooling_restart_same_keys lengthCodec "state" roomyHost).
  - reflexivity.
  - reflexivity.
  - reflexivity.
Defined.

Lemma makeCookieTooling_hashkey_error_skips_blockkey_witness :
  makeCookieTooling lengthCodec "state" dryHost
  = (Err "No cookie for hashkey.dat and can't make one",
     (makeCookieCryptoKey "state" "hashkey.dat" dryHost).2)
  /\ files (makeCookieCryptoKey "state" "hashkey.dat" dryHost).2
       !! filepath.Join "state" "blockkey.dat"
     = files dryHost !! filepath.Join "state" "blockkey.dat".
Proof.
  apply (makeCookieTooling_hashkey_error_skips_blockkey lengthCodec "state" dryHost).
  reflexivity.
Defined.
